(** * claudesidian-mcp: the model fetcher and the model smoke tester

    The repository holds two straight-line Python scripts:

    - [merge_lora.py] (the Fetcher) asks the hub client for a snapshot of
      the model repository and reports completion;
    - [test_model.py] (the Smoke Tester) loads a tokenizer and a causal
      language model from the local directory, renders a one-turn chat
      prompt, generates, decodes and prints token counts.

    Both scripts are glue over two third-party libraries
    ([huggingface_hub] and [transformers]).  The libraries are not part of
    the repository: they enter the development as interfaces (records of
    operations over a state of the outside world), and what a theorem needs
    to know about them is a hypothesis of that theorem.  The scripts
    themselves are embedded statement by statement in a small monad that
    threads the world, stops at the first raised exception and records
    every printed line and every library call. *)

From Stdlib Require Import ZArith QArith List Ascii String Lia.
From stdpp Require Import base option list strings pretty gmap fin_maps.

Local Open Scope string_scope.
Local Open Scope list_scope.
Local Open Scope Z_scope.

(** ** Python values *)

(** An exception object: its class name and its message. *)
Record Exn := mkExn { exn_class : string; exn_message : string }.

(** The line feed written [\n] in the Python literals. *)
Definition LF : string := String "010"%char EmptyString.

(** [str(n)] of a Python [int], as an f-string field renders it. *)
Definition str_int (n : Z) : string := pretty n.

(** [s[:n]]: the first [n] characters, or all of [s] when it is shorter
    (a string is taken as the sequence of its characters, one [ascii]
    each). *)
Definition py_prefix (n : nat) (s : string) : string := String.substring 0 n s.

(** A torch device name, such as [cpu] or [cuda:0]. *)
Definition Device := string.

(** A two-dimensional integer tensor of shape [(length rows, width)].
    Tensors are rectangular by construction. *)
Record Tensor := mkTensor {
  rows : list (list Z);
  width : nat;
  device : Device;
  rect : forallb (fun r => Nat.eqb (length r) width) rows = true
}.

(** [t.shape[1]] *)
Definition shape1 (t : Tensor) : Z := Z.of_nat (width t).

(** [t[0]]: the first row, an [IndexError] on an empty batch. *)
Definition IndexError : Exn :=
  mkExn "IndexError" "index 0 is out of bounds for dimension 0 with size 0".

Definition getitem0 (t : Tensor) : Exn + list Z :=
  match rows t with
  | r :: _ => inr r
  | [] => inl IndexError
  end.

(** A [BatchEncoding] behaves as a dict from field names to tensors. *)
Definition KeyError (k : string) : Exn := mkExn "KeyError" k.

Definition getitem (d : gmap string Tensor) (k : string) : Exn + Tensor :=
  match d !! k with
  | Some t => inr t
  | None => inl (KeyError k)
  end.

(** One chat turn, the dict [{"role": ..., "content": ...}]. *)
Record Message := mkMessage { role : string; content : string }.

(** The dtypes the script can name. *)
Inductive Dtype := float16 | bfloat16 | float32.

(** ** Keyword arguments of the library calls *)

Record SnapshotKwargs := mkSnapshotKwargs {
  repo_id : string;
  local_dir : string;
  local_dir_use_symlinks : bool;
  resume_download : bool
}.

Record GenerateKwargs := mkGenerateKwargs {
  inputs : gmap string Tensor;      (* the unpacked [**inputs] *)
  max_new_tokens : Z;
  temperature : Q;                  (* a float literal, as the decimal it spells *)
  do_sample : bool;
  pad_token_id : option Z
}.

(** ** What a run leaves behind *)

Inductive Call :=
| snapshot_download_call (kw : SnapshotKwargs)
| tokenizer_from_pretrained_call (path : string)
| model_from_pretrained_call (path : string) (torch_dtype : Dtype) (device_map : string)
| apply_chat_template_call (messages : list Message) (tokenize add_generation_prompt : bool)
| tokenizer_call (text : string) (return_tensors : string)
| to_call (dev : Device)
| generate_call (kw : GenerateKwargs)
| decode_call (ids : list Z) (skip_special_tokens : bool).

Inductive Event :=
| Printed (line : string)
| Called (c : Call)
| Raised (e : Exn).

(** ** The script monad

    A statement takes the world and gives back either the exception it
    raised or its value, the world after it, and the events it produced in
    program order. *)

Definition script (W A : Type) : Type := W -> (Exn + A) * W * list Event.

Definition ret {W A} (a : A) : script W A := fun w => (inr a, w, []).

Definition bind {W A B} (m : script W A) (k : A -> script W B) : script W B :=
  fun w =>
    match m w with
    | (inl e, w1, t1) => (inl e, w1, t1)
    | (inr a, w1, t1) =>
        match k a w1 with
        | (r, w2, t2) => (r, w2, t1 ++ t2)
        end
    end.

#[export] Instance script_ret {W} : MRet (script W) := @ret W.
#[export] Instance script_bind {W} : MBind (script W) :=
  fun A B k m => bind m k.

(** [print(line)] *)
Definition print {W} (line : string) : script W unit :=
  fun w => (inr tt, w, [Printed line]).

(** A call into a library: the call is recorded, then the operation runs
    on the world; an exception it raises is recorded and propagates. *)
Definition call {W A} (c : Call) (op : W -> (Exn + A) * W) : script W A :=
  fun w =>
    match op w with
    | (inl e, w1) => (inl e, w1, [Called c; Raised e])
    | (inr a, w1) => (inr a, w1, [Called c])
    end.

(** An operation of the interpreter itself (indexing) that may raise. *)
Definition lift {W A} (r : Exn + A) : script W A :=
  fun w =>
    match r with
    | inl e => (inl e, w, [Raised e])
    | inr a => (inr a, w, [])
    end.

(** ** The library interfaces *)

(** [huggingface_hub]: [snapshot_download] returns the local path. *)
Record HubClient (W : Type) := {
  snapshot_download : SnapshotKwargs -> W -> (Exn + string) * W
}.
Arguments snapshot_download {W} _ _ _.

(** [transformers]: tokenizer and model objects and the methods the
    Smoke Tester uses on them.  [generate] is taken with its default
    return value, the tensor of sequences (a generation configuration
    that asks for a dictionary of outputs is not considered). *)
Record Transformers (W : Type) := {
  Tokenizer : Type;
  Model : Type;
  AutoTokenizer_from_pretrained : string -> W -> (Exn + Tokenizer) * W;
  AutoModelForCausalLM_from_pretrained :
    string -> Dtype -> string -> W -> (Exn + Model) * W;
  tokenizer_pad_token_id : Tokenizer -> option Z;
  model_device : Model -> Device;
  apply_chat_template :
    Tokenizer -> list Message -> bool -> bool -> W -> (Exn + string) * W;
  tokenize : Tokenizer -> string -> string -> W -> (Exn + gmap string Tensor) * W;
  to : gmap string Tensor -> Device -> W -> (Exn + gmap string Tensor) * W;
  generate : Model -> GenerateKwargs -> W -> (Exn + Tensor) * W;
  decode : Tokenizer -> list Z -> bool -> W -> (Exn + string) * W
}.
Arguments Tokenizer {W} _.
Arguments Model {W} _.
Arguments AutoTokenizer_from_pretrained {W} _ _ _.
Arguments AutoModelForCausalLM_from_pretrained {W} _ _ _ _ _.
Arguments tokenizer_pad_token_id {W} _ _.
Arguments model_device {W} _ _.
Arguments apply_chat_template {W} _ _ _ _ _ _.
Arguments tokenize {W} _ _ _ _ _.
Arguments to {W} _ _ _ _.
Arguments generate {W} _ _ _ _.
Arguments decode {W} _ _ _ _ _.

(** ** merge_lora.py

    Lines 8 to 22 of the script: the two constants, the two progress
    lines, the one call of [snapshot_download] and the completion line. *)

Module merge_lora.

Definition MODEL_ID : string := "professorsynapse/nexus-tools_sft17".
Definition OUTPUT_DIR : string := "./nexus-tools-merged".

Definition request : SnapshotKwargs :=
  {| repo_id := MODEL_ID;
     local_dir := OUTPUT_DIR;
     local_dir_use_symlinks := false;
     resume_download := true |}.

Definition main {W} (hub : HubClient W) : script W unit :=
  print ("Downloading model: " +:+ MODEL_ID) ;;
  print "This will download ~15GB on first run..." ;;
  _ ← call (snapshot_download_call request) (snapshot_download hub request) ;
  print ("Done! Model downloaded to: " +:+ OUTPUT_DIR).

End merge_lora.

(** ** test_model.py

    Lines 8 to 41 of the script, one statement per line of [main].  The
    expression [tokenizer(prompt, return_tensors="pt").to(model.device)] is
    two calls, and each subscript [inputs['input_ids']] and [outputs[0]]
    is a step that may raise. *)

Module test_model.

Definition MODEL_PATH : string := "./nexus-tools-merged".

Definition messages : list Message :=
  [ {| role := "user"; content := "Hello! What can you help me with?" |} ].

Definition generate_kwargs {W} (lib : Transformers W)
    (tokenizer : Tokenizer lib) (inputs : gmap string Tensor) : GenerateKwargs :=
  {| inputs := inputs;
     max_new_tokens := 100;
     temperature := 7 # 10;
     do_sample := true;
     pad_token_id := tokenizer_pad_token_id lib tokenizer |}.

Definition main {W} (lib : Transformers W) : script W unit :=
  print "Loading tokenizer..." ;;
  tokenizer ← call (tokenizer_from_pretrained_call MODEL_PATH)
                   (AutoTokenizer_from_pretrained lib MODEL_PATH) ;
  print "Loading model (this may take a while)..." ;;
  model ← call (model_from_pretrained_call MODEL_PATH float16 "auto")
               (AutoModelForCausalLM_from_pretrained lib MODEL_PATH float16 "auto") ;
  print "Generating test response..." ;;
  prompt ← call (apply_chat_template_call messages false true)
                (apply_chat_template lib tokenizer messages false true) ;
  print ("Prompt: " +:+ py_prefix 200 prompt +:+ "...") ;;
  encoded ← call (tokenizer_call prompt "pt") (tokenize lib tokenizer prompt "pt") ;
  inputs ← call (to_call (model_device lib model))
                (to lib encoded (model_device lib model)) ;
  input_ids ← lift (getitem inputs "input_ids") ;
  print ("Input tokens: " +:+ str_int (shape1 input_ids)) ;;
  outputs ← call (generate_call (generate_kwargs lib tokenizer inputs))
                 (generate lib model (generate_kwargs lib tokenizer inputs)) ;
  row ← lift (getitem0 outputs) ;
  response ← call (decode_call row true) (decode lib tokenizer row true) ;
  print (LF +:+ "Full response:" +:+ LF +:+ response) ;;
  input_ids' ← lift (getitem inputs "input_ids") ;
  print (LF +:+ "Generated " +:+ str_int (shape1 outputs - shape1 input_ids') +:+ " tokens").

End test_model.

(** ** Running a script as a process

    The interpreter exits with status 0 when the module body runs to its
    end and with status 1 when an exception reaches the top level. *)

Record Process (W : Type) := mkProcess {
  exit_status : Z;
  uncaught : option Exn;
  world_after : W;
  trace : list Event
}.
Arguments exit_status {W} _.
Arguments uncaught {W} _.
Arguments world_after {W} _.
Arguments trace {W} _.

Definition python {W} (main : script W unit) (w : W) : Process W :=
  match main w with
  | (inl e, w', t) => mkProcess W 1 (Some e) w' t
  | (inr _, w', t) => mkProcess W 0 None w' t
  end.

(** ** What the scripts expect of the libraries

    The destination directory as the hub client sees it: every file is a
    regular file, a partial download left by an interrupted run, or a
    symbolic link. *)

Inductive Entry :=
| Regular (data : string)
| Partial (data : string)
| Symlink (target : string).

#[export] Instance Entry_eq_dec : EqDecision Entry.
Proof. solve_decision. Defined.

Definition is_regular (e : Entry) : Prop :=
  match e with Regular _ => True | _ => False end.

(** The number of bytes of a file already on disk that a resumed transfer
    does not fetch again. *)
Definition held (e : option Entry) : nat :=
  match e with
  | Some (Partial d) => String.length d
  | _ => 0%nat
  end.

(** What can be observed of the world around the hub client: the files of
    a local directory, the files of a repository on the hub, and the log of
    transfers (file and starting offset), oldest first. *)
Record HubView (W : Type) := {
  entries_of : W -> string -> gmap string Entry;
  snapshot_of : W -> string -> gmap string string;
  transfers_of : W -> list (string * nat)
}.
Arguments entries_of {W} _ _ _.
Arguments snapshot_of {W} _ _ _.
Arguments transfers_of {W} _ _.

(** The contract of [snapshot_download], for a call that returns.
    Downloading does not change the repository. *)
Definition remote_stable {W} (hub : HubClient W) (view : HubView W) : Prop :=
  forall kw w path w',
    snapshot_download hub kw w = (inr path, w') ->
    snapshot_of view w' (repo_id kw) = snapshot_of view w (repo_id kw).

(** With symbolic links disabled every file of the snapshot ends up in the
    local directory as a regular file with the content of the hub. *)
Definition copies_files {W} (hub : HubClient W) (view : HubView W) : Prop :=
  forall kw w path w',
    snapshot_download hub kw w = (inr path, w') ->
    local_dir_use_symlinks kw = false ->
    forall f data,
      snapshot_of view w (repo_id kw) !! f = Some data ->
      entries_of view w' (local_dir kw) !! f = Some (Regular data).

(** What is not a file of the snapshot is left as it was. *)
Definition leaves_others {W} (hub : HubClient W) (view : HubView W) : Prop :=
  forall kw w path w',
    snapshot_download hub kw w = (inr path, w') ->
    forall f,
      snapshot_of view w (repo_id kw) !! f = None ->
      entries_of view w' (local_dir kw) !! f = entries_of view w (local_dir kw) !! f.

(** Only files of the snapshot that are not complete yet are transferred,
    and with resume enabled a transfer starts after the bytes already
    held. *)
Definition fetches_missing {W} (hub : HubClient W) (view : HubView W) : Prop :=
  forall kw w path w',
    snapshot_download hub kw w = (inr path, w') ->
    exists new,
      transfers_of view w' = transfers_of view w ++ new /\
      forall f off, In (f, off) new ->
        (exists data,
           snapshot_of view w (repo_id kw) !! f = Some data /\
           entries_of view w (local_dir kw) !! f <> Some (Regular data)) /\
        (resume_download kw = true ->
         off = held (entries_of view w (local_dir kw) !! f)).

(** A decoder-only language model returns the prompt followed by the new
    tokens: at least one, and no more than [max_new_tokens]. *)
Definition causal_lm_contract {W} (lib : Transformers W) : Prop :=
  forall (model : Model lib) (kw : GenerateKwargs) (w w' : W) (out ids : Tensor),
    generate lib model kw w = (inr out, w') ->
    inputs kw !! "input_ids" = Some ids ->
    exists k : nat,
      width out = (width ids + k)%nat /\ (1 <= k)%nat /\ Z.of_nat k <= max_new_tokens kw.

(** The steps of the Smoke Tester, and the step a library call belongs to
    (the Fetcher's download belongs to none). *)
Inductive Step :=
| LoadTokenizer | LoadModel | RenderPrompt | Tokenize | Generate | Decode.

Definition step_of_call (c : Call) : option Step :=
  match c with
  | snapshot_download_call _ => None
  | tokenizer_from_pretrained_call _ => Some LoadTokenizer
  | model_from_pretrained_call _ _ _ => Some LoadModel
  | apply_chat_template_call _ _ _ => Some RenderPrompt
  | tokenizer_call _ _ => Some Tokenize
  | to_call _ => Some Tokenize
  | generate_call _ => Some Generate
  | decode_call _ _ => Some Decode
  end.

(** The library calls of a trace, in program order. *)
Fixpoint calls_of (t : list Event) : list Call :=
  match t with
  | [] => []
  | Called c :: t' => c :: calls_of t'
  | _ :: t' => calls_of t'
  end.

(** The lines a run prints. *)
Definition printed (t : list Event) : list string :=
  omap (fun ev => match ev with Printed line => Some line | _ => None end) t.

(** The order in which the Smoke Tester goes through its steps; the fourth
    step is two calls, the tokenizer and the move to the device. *)
Definition plan : list Step :=
  [LoadTokenizer; LoadModel; RenderPrompt; Tokenize; Tokenize; Generate; Decode].

(** A load that reads from the directory [dir]; other calls read nothing. *)
Definition loads_from (dir : string) (c : Call) : Prop :=
  match c with
  | tokenizer_from_pretrained_call path => path = dir
  | model_from_pretrained_call path _ _ => path = dir
  | _ => True
  end.

(** The events that make up a generation result: the call to [generate]
    and the line that reports the response. *)
Definition is_generation_result (ev : Event) : bool :=
  match ev with
  | Called (generate_call _) => true
  | Printed line => String.prefix (LF +:+ "Full response:") line
  | _ => false
  end.

(** No exception in a trace; and a trace in which nothing follows a raised
    exception. *)
Definition is_raise (ev : Event) : bool :=
  match ev with Raised _ => true | _ => false end.

Definition no_raise (t : list Event) : bool := forallb (fun ev => negb (is_raise ev)) t.

Fixpoint halts_on_raise (t : list Event) : bool :=
  match t with
  | [] => true
  | Raised _ :: t' => match t' with [] => true | _ :: _ => false end
  | _ :: t' => halts_on_raise t'
  end.

(** The result and the trace of a statement agree: an exception is the
    result exactly when it is the last event, and it is the only one. *)
Definition raises_last {A} (r : Exn + A) (t : list Event) : Prop :=
  match r with
  | inl e => exists t0, t = t0 ++ [Raised e] /\ no_raise t0 = true
  | inr _ => no_raise t = true
  end.

(** What a run has obtained by the time it makes a call: each stage is
    the stage before it followed by one more call that returned. *)
Definition loaded {W} (lib : Transformers W) (w : W)
    (tok : Tokenizer lib) (model : Model lib) (w2 : W) : Prop :=
  exists w1,
    AutoTokenizer_from_pretrained lib test_model.MODEL_PATH w = (inr tok, w1) /\
    AutoModelForCausalLM_from_pretrained lib test_model.MODEL_PATH float16 "auto" w1
      = (inr model, w2).

Definition rendered {W} (lib : Transformers W) (w : W)
    (tok : Tokenizer lib) (model : Model lib) (prompt : string) (w3 : W) : Prop :=
  exists w2,
    loaded lib w tok model w2 /\
    apply_chat_template lib tok test_model.messages false true w2 = (inr prompt, w3).

Definition tokenized {W} (lib : Transformers W) (w : W)
    (tok : Tokenizer lib) (model : Model lib) (enc : gmap string Tensor) (w4 : W) : Prop :=
  exists prompt w3,
    rendered lib w tok model prompt w3 /\
    tokenize lib tok prompt "pt" w3 = (inr enc, w4).

Definition prepared {W} (lib : Transformers W) (w : W)
    (tok : Tokenizer lib) (model : Model lib) (inputs : gmap string Tensor) (w5 : W)
    : Prop :=
  exists enc w4,
    tokenized lib w tok model enc w4 /\
    to lib enc (model_device lib model) w4 = (inr inputs, w5) /\
    is_Some (inputs !! "input_ids").

Definition generated {W} (lib : Transformers W) (w : W)
    (tok : Tokenizer lib) (model : Model lib) (out : Tensor) (w6 : W) : Prop :=
  exists inputs w5,
    prepared lib w tok model inputs w5 /\
    generate lib model (test_model.generate_kwargs lib tok inputs) w5 = (inr out, w6).

(** A call of the Smoke Tester is as planned when it has the arguments of
    its step and every earlier step has returned the values they are
    built from. *)
Definition as_planned {W} (lib : Transformers W) (w : W) (c : Call) : Prop :=
  match c with
  | snapshot_download_call _ => False
  | tokenizer_from_pretrained_call path => path = test_model.MODEL_PATH
  | model_from_pretrained_call path dtype device_map =>
      path = test_model.MODEL_PATH /\ dtype = float16 /\ device_map = "auto" /\
      exists tok w1,
        AutoTokenizer_from_pretrained lib test_model.MODEL_PATH w = (inr tok, w1)
  | apply_chat_template_call ms tokenize add_generation_prompt =>
      ms = test_model.messages /\ tokenize = false /\ add_generation_prompt = true /\
      exists tok model w2, loaded lib w tok model w2
  | tokenizer_call text return_tensors =>
      return_tensors = "pt" /\
      exists tok model w3, rendered lib w tok model text w3
  | to_call dev =>
      exists tok model enc w4,
        tokenized lib w tok model enc w4 /\ dev = model_device lib model
  | generate_call kw =>
      exists tok model w5,
        prepared lib w tok model (inputs kw) w5 /\
        kw = test_model.generate_kwargs lib tok (inputs kw)
  | decode_call ids skip_special_tokens =>
      skip_special_tokens = true /\
      exists tok model out w6,
        generated lib w tok model out w6 /\ getitem0 out = inr ids
  end.

(** The first row of what a causal language model returns starts with the
    first row of its input. *)
Definition echoes_prompt {W} (lib : Transformers W) : Prop :=
  forall (model : Model lib) (kw : GenerateKwargs) (w w' : W) (out ids : Tensor)
         (row : list Z),
    generate lib model kw w = (inr out, w') ->
    inputs kw !! "input_ids" = Some ids ->
    getitem0 out = inr row ->
    exists prompt_ids new,
      getitem0 ids = inr prompt_ids /\ row = prompt_ids ++ new.

(** A run proceeds when it makes the first call of the plan whatever the
    world, and the next call of the plan whenever the calls before it have
    returned. *)
Definition proceeds {W} (lib : Transformers W) (w : W) (calls : list Call) : Prop :=
  In (tokenizer_from_pretrained_call test_model.MODEL_PATH) calls /\
  (forall tok w1,
     AutoTokenizer_from_pretrained lib test_model.MODEL_PATH w = (inr tok, w1) ->
     In (model_from_pretrained_call test_model.MODEL_PATH float16 "auto") calls) /\
  (forall tok model w2,
     loaded lib w tok model w2 ->
     In (apply_chat_template_call test_model.messages false true) calls) /\
  (forall tok model prompt w3,
     rendered lib w tok model prompt w3 ->
     In (tokenizer_call prompt "pt") calls) /\
  (forall tok model enc w4,
     tokenized lib w tok model enc w4 ->
     In (to_call (model_device lib model)) calls) /\
  (forall tok model inputs w5,
     prepared lib w tok model inputs w5 ->
     In (generate_call (test_model.generate_kwargs lib tok inputs)) calls) /\
  (forall tok model out w6 row,
     generated lib w tok model out w6 ->
     getitem0 out = inr row ->
     In (decode_call row true) calls).

(** ** An in-memory hub and an in-memory model library

    Executable stand-ins for the two libraries over a small world: the
    repositories of the hub, the local disk, the log of network transfers
    and the state of the random generator.  They are what the scripts are
    run against in the examples; no theorem about the scripts depends on
    them. *)

Module Fake.

Record World := mkWorld {
  remote : gmap string (gmap string string);   (* repository, file, content *)
  disk : gmap string (gmap string Entry);      (* directory, file, entry *)
  net : list (string * nat);                   (* file and offset of every transfer *)
  seed : nat
}.

Definition dest (w : World) (dir : string) : gmap string Entry :=
  default ∅ (disk w !! dir).

Definition snapshot (w : World) (repo : string) : gmap string string :=
  default ∅ (remote w !! repo).

Definition transfers (w : World) : list (string * nat) := net w.

(** The files of a snapshot that are not yet complete in a directory. *)
Definition missing (files : gmap string string) (old : gmap string Entry)
    : list (string * string) :=
  List.filter (fun fd => negb (bool_decide (old !! fd.1 = Some (Regular fd.2))))
              (map_to_list files).

Definition fetch (resume : bool) (old : gmap string Entry) (fd : string * string)
    : string * nat :=
  (fd.1, if resume then held (old !! fd.1) else 0%nat).

Definition materialise (symlinks : bool) (repo file data : string) : Entry :=
  if symlinks then Symlink ("~/.cache/huggingface/hub/" +:+ repo +:+ "/" +:+ file)
  else Regular data.

Definition hub_snapshot_download (kw : SnapshotKwargs) (w : World)
    : (Exn + string) * World :=
  match remote w !! repo_id kw with
  | None => (inl (mkExn "RepositoryNotFoundError" (repo_id kw)), w)
  | Some files =>
      let old := dest w (local_dir kw) in
      let written :=
        map_imap (fun f d => Some (materialise (local_dir_use_symlinks kw) (repo_id kw) f d))
                 files in
      (inr (local_dir kw),
       {| remote := remote w;
          disk := <[local_dir kw := written ∪ old]> (disk w);
          net := net w ++ List.map (fetch (resume_download kw) old) (missing files old);
          seed := seed w |})
  end.

Definition hub : HubClient World :=
  {| snapshot_download := hub_snapshot_download |}.

Definition view : HubView World :=
  {| entries_of := dest; snapshot_of := snapshot; transfers_of := transfers |}.

(** A one-row tensor. *)
Definition row_rect (r : list Z)
    : forallb (fun r' => Nat.eqb (length r') (length r)) [r] = true :=
  @eq_ind_r bool true (fun b : bool => andb b true = true) (eq_refl true)
    (Nat.eqb (length r) (length r)) (Nat.eqb_refl (length r)).

Definition row_tensor (r : list Z) (dev : Device) : Tensor :=
  mkTensor [r] (length r) dev (row_rect r).

Definition move (dev : Device) (t : Tensor) : Tensor :=
  mkTensor (rows t) (width t) dev (rect t).

Definition codes (s : string) : list Z :=
  List.map (fun c => Z.of_nat (nat_of_ascii c)) (list_ascii_of_string s).

Definition text_of (ids : list Z) : string :=
  string_of_list_ascii (List.map (fun i => ascii_of_nat (Z.to_nat i)) ids).

Record FakeTokenizer := { fake_pad : option Z }.
Record FakeModel := { fake_device : Device }.

Definition OSError (path file : string) : Exn :=
  mkExn "OSError" (path +:+ " does not appear to have a file named " +:+ file).

Definition load_tokenizer (path : string) (w : World) : (Exn + FakeTokenizer) * World :=
  match dest w path !! "tokenizer.json" with
  | Some (Regular data) =>
      (inr {| fake_pad := if bool_decide (data = "pad") then Some 0 else None |}, w)
  | _ => (inl (OSError path "tokenizer.json"), w)
  end.

Definition load_model (path : string) (dtype : Dtype) (device_map : string) (w : World)
    : (Exn + FakeModel) * World :=
  match dest w path !! "model.safetensors" with
  | Some (Regular _) => (inr {| fake_device := "cpu" |}, w)
  | _ => (inl (OSError path "model.safetensors"), w)
  end.

Definition render (m : Message) : string :=
  "<|" +:+ role m +:+ "|>" +:+ content m +:+ "<|end|>".

Definition chat_template (tok : FakeTokenizer) (ms : list Message)
    (tokenize add_generation_prompt : bool) (w : World) : (Exn + string) * World :=
  (inr (String.concat "" (List.map render ms)
        +:+ (if add_generation_prompt then "<|assistant|>" else "")), w).

Definition encode (tok : FakeTokenizer) (text return_tensors : string) (w : World)
    : (Exn + gmap string Tensor) * World :=
  (inr (<["input_ids" := row_tensor (codes text) "cpu"]>
        (<["attention_mask" := row_tensor (List.map (fun _ => 1) (codes text)) "cpu"]> ∅)), w).

Definition to_device (enc : gmap string Tensor) (dev : Device) (w : World)
    : (Exn + gmap string Tensor) * World :=
  (inr (move dev <$> enc), w).

Definition ValueError (msg : string) : Exn := mkExn "ValueError" msg.

(** Sampling: the number of new tokens is drawn from the generator. *)
Definition sample (m : FakeModel) (kw : GenerateKwargs) (w : World)
    : (Exn + Tensor) * World :=
  match inputs kw !! "input_ids" with
  | None => (inl (ValueError "input_ids"), w)
  | Some ids =>
      match rows ids with
      | [] => (inl (ValueError "empty batch"), w)
      | r :: _ =>
          if bool_decide (max_new_tokens kw <= 0)
          then (inl (ValueError "max_new_tokens must be greater than 0"), w)
          else if Nat.eqb (seed w) 0
          then (inl (mkExn "OutOfMemoryError" "CUDA out of memory"), w)
          else
            let k := S (seed w mod Z.to_nat (max_new_tokens kw)) in
            (inr (row_tensor (r ++ replicate k 33) (fake_device m)),
             {| remote := remote w; disk := disk w; net := net w; seed := S (seed w) |})
      end
  end.

Definition detokenize (tok : FakeTokenizer) (ids : list Z) (skip_special_tokens : bool)
    (w : World) : (Exn + string) * World :=
  (inr (text_of ids), w).

Definition transformers : Transformers World :=
  {| Tokenizer := FakeTokenizer;
     Model := FakeModel;
     AutoTokenizer_from_pretrained := load_tokenizer;
     AutoModelForCausalLM_from_pretrained := load_model;
     tokenizer_pad_token_id := fake_pad;
     model_device := fake_device;
     apply_chat_template := chat_template;
     tokenize := encode;
     to := to_device;
     generate := sample;
     decode := detokenize |}.

(** A hub that serves the model, and an empty disk. *)
Definition model_files (tokenizer_json : string) : gmap string string :=
  <["tokenizer.json" := tokenizer_json]> (<["model.safetensors" := "weights"]> ∅).

Definition fresh (tokenizer_json : string) : World :=
  {| remote := <[merge_lora.MODEL_ID := model_files tokenizer_json]> ∅;
     disk := ∅; net := []; seed := 41 |}.

(** The disk after an interrupted download: the weights are partial. *)
Definition interrupted : World :=
  {| remote := <[merge_lora.MODEL_ID := model_files "pad"]> ∅;
     disk := <[merge_lora.OUTPUT_DIR :=
               <["tokenizer.json" := Regular "pad"]>
               (<["model.safetensors" := Partial "wei"]> ∅)]> ∅;
     net := [("tokenizer.json", 0%nat); ("model.safetensors", 0%nat)];
     seed := 41 |}.

(** The disk once the download is complete. *)
Definition ready (tokenizer_json : string) : World :=
  {| remote := <[merge_lora.MODEL_ID := model_files tokenizer_json]> ∅;
     disk := <[merge_lora.OUTPUT_DIR :=
               <["tokenizer.json" := Regular tokenizer_json]>
               (<["model.safetensors" := Regular "weights"]> ∅)]> ∅;
     net := [("tokenizer.json", 0%nat); ("model.safetensors", 0%nat)];
     seed := 41 |}.

(** A complete disk without the weights, and one on which generation
    runs out of memory. *)
Definition no_weights : World :=
  {| remote := ∅;
     disk := <[merge_lora.OUTPUT_DIR := <["tokenizer.json" := Regular "pad"]> ∅]> ∅;
     net := []; seed := 41 |}.

Definition exhausted : World :=
  {| remote := remote (ready "pad"); disk := disk (ready "pad");
     net := net (ready "pad"); seed := 0 |}.

(** A hub that does not know the repository. *)
Definition offline : World := {| remote := ∅; disk := ∅; net := []; seed := 41 |}.

(** What the Smoke Tester passes to [generate] on the complete disk. *)
Definition example_prompt : string :=
  String.concat "" (List.map render test_model.messages) +:+ "<|assistant|>".

Definition example_inputs : gmap string Tensor :=
  move "cpu" <$>
    (<["input_ids" := row_tensor (codes example_prompt) "cpu"]>
     (<["attention_mask" := row_tensor (List.map (fun _ => 1) (codes example_prompt)) "cpu"]> ∅)).

Definition example_kwargs (tok : FakeTokenizer) : GenerateKwargs :=
  test_model.generate_kwargs transformers tok example_inputs.

End Fake.

(** ** Libraries that return degenerate values

    Two variants of the in-memory model library: a tokenizer whose
    encoding has no [input_ids] field, and a model whose output is an
    empty batch. *)

Module Faulty.

Definition encode_nothing (tok : Fake.FakeTokenizer) (text return_tensors : string)
    (w : Fake.World) : (Exn + gmap string Tensor) * Fake.World :=
  (inr ∅, w).

Definition no_input_ids : Transformers Fake.World :=
  {| Tokenizer := Fake.FakeTokenizer;
     Model := Fake.FakeModel;
     AutoTokenizer_from_pretrained := Fake.load_tokenizer;
     AutoModelForCausalLM_from_pretrained := Fake.load_model;
     tokenizer_pad_token_id := Fake.fake_pad;
     model_device := Fake.fake_device;
     apply_chat_template := Fake.chat_template;
     tokenize := encode_nothing;
     to := Fake.to_device;
     generate := Fake.sample;
     decode := Fake.detokenize |}.

Definition no_rows : Tensor := mkTensor [] 0 "cpu" eq_refl.

Definition sample_nothing (m : Fake.FakeModel) (kw : GenerateKwargs) (w : Fake.World)
    : (Exn + Tensor) * Fake.World :=
  (inr no_rows, w).

Definition empty_batch : Transformers Fake.World :=
  {| Tokenizer := Fake.FakeTokenizer;
     Model := Fake.FakeModel;
     AutoTokenizer_from_pretrained := Fake.load_tokenizer;
     AutoModelForCausalLM_from_pretrained := Fake.load_model;
     tokenizer_pad_token_id := Fake.fake_pad;
     model_device := Fake.fake_device;
     apply_chat_template := Fake.chat_template;
     tokenize := Fake.encode;
     to := Fake.to_device;
     generate := sample_nothing;
     decode := Fake.detokenize |}.

End Faulty.

(** ** The transcript of a complete Smoke Tester run

    The values a run that reaches its last statement has gone through. *)

Record Transcript {W} (lib : Transformers W) := mkTranscript {
  the_tokenizer : Tokenizer lib;
  the_model : Model lib;
  the_prompt : string;
  the_inputs : gmap string Tensor;
  the_input_ids : Tensor;
  the_outputs : Tensor;
  the_row : list Z;
  the_response : string
}.
Arguments the_tokenizer {W lib} _.
Arguments the_model {W lib} _.
Arguments the_prompt {W lib} _.
Arguments the_inputs {W lib} _.
Arguments the_input_ids {W lib} _.
Arguments the_outputs {W lib} _.
Arguments the_row {W lib} _.
Arguments the_response {W lib} _.

(** The library calls behind a transcript, from the world [w] to [w']. *)
Definition produced {W} (lib : Transformers W) (w : W) (x : Transcript lib) (w' : W)
    : Prop :=
  exists (w1 w2 w3 w4 w5 w6 : W) (encoded : gmap string Tensor),
    AutoTokenizer_from_pretrained lib test_model.MODEL_PATH w = (inr (the_tokenizer x), w1) /\
    AutoModelForCausalLM_from_pretrained lib test_model.MODEL_PATH float16 "auto" w1
      = (inr (the_model x), w2) /\
    apply_chat_template lib (the_tokenizer x) test_model.messages false true w2
      = (inr (the_prompt x), w3) /\
    tokenize lib (the_tokenizer x) (the_prompt x) "pt" w3 = (inr encoded, w4) /\
    to lib encoded (model_device lib (the_model x)) w4 = (inr (the_inputs x), w5) /\
    the_inputs x !! "input_ids" = Some (the_input_ids x) /\
    generate lib (the_model x)
      (test_model.generate_kwargs lib (the_tokenizer x) (the_inputs x)) w5
      = (inr (the_outputs x), w6) /\
    getitem0 (the_outputs x) = inr (the_row x) /\
    decode lib (the_tokenizer x) (the_row x) true w6 = (inr (the_response x), w').

(** What such a run prints and calls. *)
Definition report {W} {lib : Transformers W} (x : Transcript lib) : list Event :=
  [ Printed "Loading tokenizer...";
    Called (tokenizer_from_pretrained_call test_model.MODEL_PATH);
    Printed "Loading model (this may take a while)...";
    Called (model_from_pretrained_call test_model.MODEL_PATH float16 "auto");
    Printed "Generating test response...";
    Called (apply_chat_template_call test_model.messages false true);
    Printed ("Prompt: " +:+ py_prefix 200 (the_prompt x) +:+ "...");
    Called (tokenizer_call (the_prompt x) "pt");
    Called (to_call (model_device lib (the_model x)));
    Printed ("Input tokens: " +:+ str_int (shape1 (the_input_ids x)));
    Called (generate_call
              (test_model.generate_kwargs lib (the_tokenizer x) (the_inputs x)));
    Called (decode_call (the_row x) true);
    Printed (LF +:+ "Full response:" +:+ LF +:+ the_response x);
    Printed (LF +:+ "Generated "
             +:+ str_int (shape1 (the_outputs x) - shape1 (the_input_ids x))
             +:+ " tokens") ].

(** ** A weakest-precondition calculus for scripts

    [wp m w Q] says that running [m] from the world [w] ends in a result,
    a world and a trace that satisfy [Q].  The rules follow the shape of
    the monad, so a straight-line script is run symbolically by applying
    them from the first statement to the last. *)

Definition wp {W A} (m : script W A) (w : W)
    (Q : Exn + A -> W -> list Event -> Prop) : Prop :=
  match m w with
  | (r, w', t) => Q r w' t
  end.

(** A script whose result and trace agree from every world. *)
Definition propagating {W A} (m : script W A) : Prop :=
  forall w, wp m w (fun r _ t => raises_last r t).

Section Rules.
Context {W : Type}.

Lemma wp_ret {A} (a : A) (w : W) Q : Q (inr a) w [] -> wp (mret a) w Q.
Proof. exact (fun H => H). Qed.

Lemma wp_print (line : string) (w : W) Q :
  Q (inr tt) w [Printed line] -> wp (print line) w Q.
Proof. exact (fun H => H). Qed.

Lemma wp_call {A} (c : Call) (op : W -> (Exn + A) * W) (w : W) Q :
  (forall e w1, op w = (inl e, w1) -> Q (inl e) w1 [Called c; Raised e]) ->
  (forall a w1, op w = (inr a, w1) -> Q (inr a) w1 [Called c]) ->
  wp (call c op) w Q.
Proof.
  intros Hraise Hreturn. unfold wp, call.
  destruct (op w) as [[e | a] w1]; [apply Hraise | apply Hreturn]; reflexivity.
Qed.

Lemma wp_lift {A} (r : Exn + A) (w : W) Q :
  (forall e, r = inl e -> Q (inl e) w [Raised e]) ->
  (forall a, r = inr a -> Q (inr a) w []) ->
  wp (lift r) w Q.
Proof.
  intros Hraise Hreturn. unfold wp, lift.
  destruct r as [e | a]; [apply Hraise | apply Hreturn]; reflexivity.
Qed.

Lemma wp_bind {A B} (m : script W A) (k : A -> script W B) (w : W) Q :
  wp m w (fun r w1 t1 =>
    match r with
    | inl e => Q (inl e) w1 t1
    | inr a => wp (k a) w1 (fun r2 w2 t2 => Q r2 w2 (t1 ++ t2))
    end) ->
  wp (m ≫= k) w Q.
Proof.
  unfold wp, mbind, script_bind, bind.
  destruct (m w) as [[[e | a] w1] t1]; [exact (fun H => H) |].
  destruct (k a w1) as [[r2 w2] t2]. exact (fun H => H).
Qed.

(** From the calculus to the process the interpreter runs. *)
Lemma wp_python (main : script W unit) (w : W) (P : Process W -> Prop) :
  wp main w (fun r w' t =>
    match r with
    | inl e => P (mkProcess W 1 (Some e) w' t)
    | inr _ => P (mkProcess W 0 None w' t)
    end) ->
  P (python main w).
Proof.
  unfold wp, python. destruct (main w) as [[[e | u] w'] t]; exact (fun H => H).
Qed.
End Rules.

(** Symbolic execution of a straight-line script: one goal per way the run
    can end, with the outcome of every library call in the context. *)
Ltac wp_step :=
  first
    [ apply wp_bind
    | apply wp_print
    | apply wp_ret
    | apply wp_call; [intros ?e ?w ?Hcall | intros ?a ?w ?Hcall]
    | apply wp_lift; [intros ?e ?Hget | intros ?a ?Hget] ].

Ltac wp_run := repeat (wp_step; cbn beta iota).

Ltac run_fetcher := apply wp_python; unfold merge_lora.main; wp_run.
Ltac run_tester := apply wp_python; unfold test_model.main; wp_run.

(** ** Runs of the Smoke Tester *)

Lemma getitem_Some (d : gmap string Tensor) (k : string) (t : Tensor) :
  getitem d k = inr t -> d !! k = Some t.
Proof. unfold getitem. destruct (d !! k); congruence. Qed.

Lemma getitem0_length (t : Tensor) (r : list Z) :
  getitem0 t = inr r -> length r = width t.
Proof.
  unfold getitem0. intros H. pose proof (rect t) as Hrect.
  destruct (rows t) as [| r' rest]; [discriminate |].
  injection H as <-. cbn in Hrect.
  apply andb_prop in Hrect as [Hr _]. apply Nat.eqb_eq. exact Hr.
Qed.

(** A run that exits with status 0 went through every statement. *)
Lemma complete_run {W} (lib : Transformers W) (w : W) :
  exit_status (python (test_model.main lib) w) = 0 ->
  exists x : Transcript lib,
    produced lib w x (world_after (python (test_model.main lib) w)) /\
    trace (python (test_model.main lib) w) = report x.
Proof.
  run_tester; cbn; try discriminate.
  intros _.
  match goal with
  | H1 : getitem ?d ?k = inr ?t1, H2 : getitem ?d ?k = inr ?t2 |- _ =>
      rewrite H1 in H2; injection H2 as <-
  end.
  eexists (mkTranscript W lib _ _ _ _ _ _ _ _). split.
  - unfold produced; cbn. do 7 eexists.
    repeat split; try eassumption. apply getitem_Some; eassumption.
  - reflexivity.
Qed.

(** Cases on the membership of an event in an explicit trace. *)
Ltac in_trace H :=
  cbn in H;
  repeat (destruct H as [H | H]; [try discriminate H |]);
  try contradiction H.

(** Every generation call of a run carries the keyword arguments the
    script builds from the tokenizer it loaded. *)
Lemma generate_call_inv {W} (lib : Transformers W) (w : W) (kw : GenerateKwargs) :
  In (Called (generate_call kw)) (trace (python (test_model.main lib) w)) ->
  exists (tok : Tokenizer lib) (w1 : W) (enc : gmap string Tensor),
    AutoTokenizer_from_pretrained lib test_model.MODEL_PATH w = (inr tok, w1) /\
    kw = test_model.generate_kwargs lib tok enc.
Proof.
  revert kw. run_tester; intros kw H; in_trace H.
  all: injection H as <-; eauto.
Qed.

(** The in-memory model honours the contract of a causal language model. *)
Lemma fake_causal_lm : causal_lm_contract Fake.transformers.
Proof.
  intros m kw w w' out ids Hgen Hids. cbn in Hgen. unfold Fake.sample in Hgen.
  rewrite Hids in Hgen. pose proof (rect ids) as Hrect.
  destruct (rows ids) as [| r rest]; [discriminate |].
  case_bool_decide as Hmax; [discriminate |].
  destruct (Nat.eqb (Fake.seed w) 0); [discriminate |].
  injection Hgen as <- <-. cbn in Hrect.
  apply andb_prop in Hrect as [Hr _]. apply Nat.eqb_eq in Hr.
  exists (S (Fake.seed w mod Z.to_nat (max_new_tokens kw))). cbn.
  rewrite length_app, Hr. cbn [length]. rewrite length_replicate.
  assert (Fake.seed w mod Z.to_nat (max_new_tokens kw) < Z.to_nat (max_new_tokens kw))%nat
    by (apply Nat.mod_upper_bound; lia).
  repeat split; lia.
Qed.

(** C7. A Smoke Tester run that reaches its last statement, with [N] input
    tokens (the width of the [input_ids] it printed as "Input tokens") and
    an output of [T] tokens (the width of what [generate] returned), prints
    "Generated T - N tokens" as its last line. *)
Theorem generated_count_is_difference {W} (lib : Transformers W) (w : W) :
  exit_status (python (test_model.main lib) w) = 0 ->
  exists (x : Transcript lib) (N T : Z),
    produced lib w x (world_after (python (test_model.main lib) w)) /\
    N = shape1 (the_input_ids x) /\
    T = shape1 (the_outputs x) /\
    In (Printed ("Input tokens: " +:+ str_int N)) (trace (python (test_model.main lib) w)) /\
    last (trace (python (test_model.main lib) w))
      = Some (Printed (LF +:+ "Generated " +:+ str_int (T - N) +:+ " tokens")).
Proof.
  intros Hexit. destruct (complete_run lib w Hexit) as (x & Hx & Htrace).
  exists x, (shape1 (the_input_ids x)), (shape1 (the_outputs x)).
  rewrite Htrace. repeat split; try assumption.
  cbn. tauto.
Qed.

Lemma generated_count_is_difference_witness :
  exists (x : Transcript Fake.transformers) (N T : Z),
    produced Fake.transformers (Fake.ready "pad") x
      (world_after (python (test_model.main Fake.transformers) (Fake.ready "pad"))) /\
    N = shape1 (the_input_ids x) /\
    T = shape1 (the_outputs x) /\
    In (Printed ("Input tokens: " +:+ str_int N))
       (trace (python (test_model.main Fake.transformers) (Fake.ready "pad"))) /\
    last (trace (python (test_model.main Fake.transformers) (Fake.ready "pad")))
      = Some (Printed (LF +:+ "Generated " +:+ str_int (T - N) +:+ " tokens")).
Proof.
  apply (generated_count_is_difference Fake.transformers (Fake.ready "pad")).
  vm_compute. reflexivity.
Defined.

(** C1. When the model behaves as a causal language model (its output is
    the prompt followed by at least one and at most [max_new_tokens] new
    tokens), every Smoke Tester run that reaches the final report prints a
    generated-token count, output length minus input length, that is
    greater than 0 and at most 100. *)
Theorem generated_count_bounds {W} (lib : Transformers W) (w : W) :
  causal_lm_contract lib ->
  exit_status (python (test_model.main lib) w) = 0 ->
  exists (x : Transcript lib) (g : Z),
    produced lib w x (world_after (python (test_model.main lib) w)) /\
    g = shape1 (the_outputs x) - shape1 (the_input_ids x) /\
    last (trace (python (test_model.main lib) w))
      = Some (Printed (LF +:+ "Generated " +:+ str_int g +:+ " tokens")) /\
    0 < g <= 100.
Proof.
  intros Hlm Hexit. destruct (complete_run lib w Hexit) as (x & Hx & Htrace).
  exists x, (shape1 (the_outputs x) - shape1 (the_input_ids x)).
  rewrite Htrace. repeat split; try assumption.
  all: destruct Hx as (w1 & w2 & w3 & w4 & w5 & w6 & enc & _ & _ & _ & _ & _ & Hids & Hgen & _).
  all: destruct (Hlm _ _ _ _ _ _ Hgen Hids) as (k & Hwidth & Hlo & Hhi).
  all: unfold shape1; rewrite Hwidth; cbn in Hhi; lia.
Qed.

Lemma generated_count_bounds_witness :
  exists (x : Transcript Fake.transformers) (g : Z),
    produced Fake.transformers (Fake.ready "pad") x
      (world_after (python (test_model.main Fake.transformers) (Fake.ready "pad"))) /\
    g = shape1 (the_outputs x) - shape1 (the_input_ids x) /\
    last (trace (python (test_model.main Fake.transformers) (Fake.ready "pad")))
      = Some (Printed (LF +:+ "Generated " +:+ str_int g +:+ " tokens")) /\
    0 < g <= 100.
Proof.
  apply (generated_count_bounds Fake.transformers (Fake.ready "pad")).
  - exact fake_causal_lm.
  - vm_compute. reflexivity.
Defined.

(** The in-memory model returns its prompt followed by the new tokens. *)
Lemma fake_echoes_prompt : echoes_prompt Fake.transformers.
Proof.
  intros m kw w w' out ids row Hgen Hids Hrow. cbn in Hgen. unfold Fake.sample in Hgen.
  rewrite Hids in Hgen. unfold getitem0.
  destruct (rows ids) as [| r rest]; [discriminate |].
  case_bool_decide; [discriminate |].
  destruct (Nat.eqb (Fake.seed w) 0); [discriminate |].
  injection Hgen as <- <-. cbn in Hrow. injection Hrow as <-.
  eauto.
Qed.

(** C2. In a Smoke Tester run that reaches its last statement the response
    is the decoding, with special tokens skipped, of the first row of what
    [generate] returned, and the number of tokens decoded is the reported
    input count plus the reported generated count.  When the model returns
    its prompt followed by the new tokens, the decoded row is the input
    row followed by as many tokens as the generated count. *)
Theorem response_consistent_with_counts {W} (lib : Transformers W) (w : W) :
  exit_status (python (test_model.main lib) w) = 0 ->
  exists (x : Transcript lib) (N G : Z),
    produced lib w x (world_after (python (test_model.main lib) w)) /\
    In (Called (decode_call (the_row x) true)) (trace (python (test_model.main lib) w)) /\
    In (Printed (LF +:+ "Full response:" +:+ LF +:+ the_response x))
       (trace (python (test_model.main lib) w)) /\
    In (Printed ("Input tokens: " +:+ str_int N)) (trace (python (test_model.main lib) w)) /\
    last (trace (python (test_model.main lib) w))
      = Some (Printed (LF +:+ "Generated " +:+ str_int G +:+ " tokens")) /\
    Z.of_nat (length (the_row x)) = N + G /\
    (echoes_prompt lib ->
     exists prompt_ids new,
       getitem0 (the_input_ids x) = inr prompt_ids /\
       the_row x = prompt_ids ++ new /\
       Z.of_nat (length prompt_ids) = N /\
       Z.of_nat (length new) = G).
Proof.
  intros Hexit. destruct (complete_run lib w Hexit) as (x & Hx & Htrace).
  exists x, (shape1 (the_input_ids x)),
    (shape1 (the_outputs x) - shape1 (the_input_ids x)).
  rewrite Htrace. split; [assumption |].
  destruct Hx as (w1 & w2 & w3 & w4 & w5 & w6 & enc & _ & _ & _ & _ & _
                  & Hids & Hgen & Hrow & _).
  pose proof (getitem0_length _ _ Hrow) as Hlen.
  do 4 (split; [cbn; tauto |]).
  split; [unfold shape1; lia |].
  intros Hecho.
  destruct (Hecho _ _ _ _ _ _ _ Hgen Hids Hrow) as (prompt_ids & new & Hprompt & Hsplit).
  exists prompt_ids, new.
  pose proof (getitem0_length _ _ Hprompt) as Hlen'.
  rewrite Hsplit, length_app in Hlen.
  repeat split; try assumption; unfold shape1; lia.
Qed.

Lemma response_consistent_with_counts_witness :
  exists (x : Transcript Fake.transformers) (N G : Z),
    Z.of_nat (length (the_row x)) = N + G /\
    exists prompt_ids new,
      getitem0 (the_input_ids x) = inr prompt_ids /\
      the_row x = prompt_ids ++ new /\
      Z.of_nat (length prompt_ids) = N /\
      Z.of_nat (length new) = G.
Proof.
  destruct (response_consistent_with_counts Fake.transformers (Fake.ready "pad"))
    as (x & N & G & _ & _ & _ & _ & _ & Hcount & Hecho); [vm_compute; reflexivity |].
  exists x, N, G. split; [exact Hcount |].
  exact (Hecho fake_echoes_prompt).
Defined.

(** C6. Every generation call of the Smoke Tester samples ([do_sample] is
    true), at temperature 0.7, with at most 100 new tokens, and with the
    padding token id of the tokenizer the run loaded. *)
Theorem generation_settings {W} (lib : Transformers W) (w : W) (kw : GenerateKwargs) :
  In (Called (generate_call kw)) (trace (python (test_model.main lib) w)) ->
  do_sample kw = true /\
  temperature kw = (7 # 10)%Q /\
  max_new_tokens kw = 100 /\
  exists (tok : Tokenizer lib) (w1 : W),
    AutoTokenizer_from_pretrained lib test_model.MODEL_PATH w = (inr tok, w1) /\
    pad_token_id kw = tokenizer_pad_token_id lib tok.
Proof.
  intros H. destruct (generate_call_inv lib w kw H) as (tok & w1 & enc & Htok & ->).
  cbn. repeat split. exists tok, w1. split; [assumption | reflexivity].
Qed.

(** C10. Whatever tokenizer the Smoke Tester loaded, the padding token id
    it passes to generation is that tokenizer's, with no fallback: when the
    tokenizer defines none, the value passed is [None]. *)
Theorem pad_token_forwarded {W} (lib : Transformers W) (w w1 : W)
    (tok : Tokenizer lib) (kw : GenerateKwargs) :
  AutoTokenizer_from_pretrained lib test_model.MODEL_PATH w = (inr tok, w1) ->
  In (Called (generate_call kw)) (trace (python (test_model.main lib) w)) ->
  pad_token_id kw = tokenizer_pad_token_id lib tok /\
  (tokenizer_pad_token_id lib tok = None -> pad_token_id kw = None).
Proof.
  intros Htok H.
  destruct (generate_call_inv lib w kw H) as (tok' & w1' & enc & Htok' & ->).
  rewrite Htok in Htok'. injection Htok' as <- <-.
  cbn. split; [reflexivity | exact (fun Hnone => Hnone)].
Qed.

(** Finding an event in an explicit trace. *)
Ltac find_event := vm_compute; repeat first [left; reflexivity | right].

Lemma generation_settings_witness :
  do_sample (Fake.example_kwargs {| Fake.fake_pad := Some 0 |}) = true /\
  temperature (Fake.example_kwargs {| Fake.fake_pad := Some 0 |}) = (7 # 10)%Q /\
  max_new_tokens (Fake.example_kwargs {| Fake.fake_pad := Some 0 |}) = 100 /\
  exists (tok : Tokenizer Fake.transformers) (w1 : Fake.World),
    AutoTokenizer_from_pretrained Fake.transformers test_model.MODEL_PATH (Fake.ready "pad")
      = (inr tok, w1) /\
    pad_token_id (Fake.example_kwargs {| Fake.fake_pad := Some 0 |})
      = tokenizer_pad_token_id Fake.transformers tok.
Proof.
  apply (generation_settings Fake.transformers (Fake.ready "pad")).
  find_event.
Defined.

Lemma pad_token_forwarded_witness :
  pad_token_id (Fake.example_kwargs {| Fake.fake_pad := None |}) = None.
Proof.
  apply (pad_token_forwarded Fake.transformers (Fake.ready "no pad") (Fake.ready "no pad")
           {| Fake.fake_pad := None |} (Fake.example_kwargs {| Fake.fake_pad := None |})).
  - vm_compute. reflexivity.
  - find_event.
  - reflexivity.
Defined.

(** C5. The Fetcher's output directory and the Smoke Tester's model path
    are the same string, the path [./nexus-tools-merged/] of the
    specification without its trailing separator; the one download of the
    Fetcher fills that directory and every load of the Smoke Tester reads
    from it. *)
Theorem output_dir_is_model_path :
  merge_lora.OUTPUT_DIR = test_model.MODEL_PATH /\
  merge_lora.OUTPUT_DIR +:+ "/" = "./nexus-tools-merged/" /\
  test_model.MODEL_PATH +:+ "/" = "./nexus-tools-merged/" /\
  forall {W} (hub : HubClient W) (lib : Transformers W) (w w' : W),
    calls_of (trace (python (merge_lora.main hub) w))
      = [snapshot_download_call merge_lora.request] /\
    local_dir merge_lora.request = merge_lora.OUTPUT_DIR /\
    Forall (loads_from merge_lora.OUTPUT_DIR)
           (calls_of (trace (python (test_model.main lib) w'))).
Proof.
  do 3 (split; [reflexivity |]).
  intros W hub lib w w'.
  split; [run_fetcher; reflexivity |].
  split; [reflexivity |].
  run_tester; cbn; repeat constructor.
Qed.

(** ** Exceptions reach the top level

    No statement of the monad catches: whatever is built from [print],
    [call], [lift] and sequencing ends at the first exception, and the
    exception it ends with is the one that was raised. *)

Section Propagation.
Context {W : Type}.

Lemma no_raise_app (t1 t2 : list Event) :
  no_raise (t1 ++ t2) = no_raise t1 && no_raise t2.
Proof. apply forallb_app. Qed.

Lemma propagating_ret {A} (a : A) : propagating (mret a : script W A).
Proof. intros w. reflexivity. Qed.

Lemma propagating_print (line : string) : propagating (print line : script W unit).
Proof. intros w. reflexivity. Qed.

Lemma propagating_call {A} (c : Call) (op : W -> (Exn + A) * W) :
  propagating (call c op).
Proof.
  intros w. apply wp_call; intros; cbn; [| reflexivity].
  exists [Called c]. split; reflexivity.
Qed.

Lemma propagating_lift {A} (r : Exn + A) : propagating (lift r : script W A).
Proof.
  intros w. apply wp_lift; intros; cbn; [| reflexivity].
  exists []. split; reflexivity.
Qed.

Lemma propagating_bind {A B} (m : script W A) (k : A -> script W B) :
  propagating m -> (forall a, propagating (k a)) -> propagating (m ≫= k).
Proof.
  intros Hm Hk w. apply wp_bind. specialize (Hm w). unfold wp in *.
  destruct (m w) as [[[e | a] w1] t1]; [exact Hm |].
  specialize (Hk a w1). unfold wp in Hk.
  destruct (k a w1) as [[[e | b] w2] t2]; cbn in *.
  - destruct Hk as (t0 & -> & Ht0). exists (t1 ++ t0). split.
    + apply app_assoc.
    + rewrite no_raise_app, Hm, Ht0. reflexivity.
  - rewrite no_raise_app, Hm, Hk. reflexivity.
Qed.

(** What the agreement of result and trace gives about a trace. *)
Lemma no_raise_not_In (t : list Event) (e : Exn) :
  no_raise t = true -> ~ In (Raised e) t.
Proof.
  induction t as [| ev t IH]; cbn; [tauto |].
  intros Hall [-> | Hin].
  - discriminate.
  - apply andb_prop in Hall as [_ Hall]. exact (IH Hall Hin).
Qed.

Lemma no_raise_halts (t : list Event) : no_raise t = true -> halts_on_raise t = true.
Proof.
  induction t as [| ev t IH]; cbn; [reflexivity |].
  intros Hall. apply andb_prop in Hall as [Hev Hall].
  destruct ev; try discriminate; exact (IH Hall).
Qed.

Lemma halts_on_raise_snoc (t0 : list Event) (e : Exn) :
  no_raise t0 = true -> halts_on_raise (t0 ++ [Raised e]) = true.
Proof.
  induction t0 as [| ev t0 IH]; cbn; [reflexivity |].
  intros Hall. apply andb_prop in Hall as [Hev Hall].
  destruct ev; try discriminate; exact (IH Hall).
Qed.

Lemma raises_last_halts {A} (r : Exn + A) (t : list Event) :
  raises_last r t -> halts_on_raise t = true.
Proof.
  destruct r as [e | a]; cbn.
  - intros (t0 & -> & Ht0). apply halts_on_raise_snoc, Ht0.
  - apply no_raise_halts.
Qed.

Lemma raises_last_In {A} (r : Exn + A) (t : list Event) (e : Exn) :
  raises_last r t -> In (Raised e) t -> r = inl e /\ last t = Some (Raised e).
Proof.
  destruct r as [e' | a]; cbn.
  - intros (t0 & -> & Ht0) Hin. apply in_app_or in Hin as [Hin | Hin].
    + destruct (no_raise_not_In _ _ Ht0 Hin).
    + cbn in Hin. destruct Hin as [[= ->] | []].
      split; [reflexivity | apply last_snoc].
  - intros Ht Hin. destruct (no_raise_not_In _ _ Ht Hin).
Qed.

(** The process of a propagating script. *)
Lemma propagating_python (main : script W unit) (w : W) :
  propagating main ->
  halts_on_raise (trace (python main w)) = true /\
  forall e, In (Raised e) (trace (python main w)) ->
    uncaught (python main w) = Some e /\
    exit_status (python main w) = 1 /\
    last (trace (python main w)) = Some (Raised e).
Proof.
  intros Hmain. specialize (Hmain w). unfold wp, python in *.
  destruct (main w) as [[r w'] t]. split.
  - destruct r; exact (raises_last_halts _ _ Hmain).
  - intros e Hin. destruct r as [e' | u]; cbn in Hin.
    + destruct (raises_last_In _ _ e Hmain Hin) as [[= ->] Hlast]. cbn. auto.
    + destruct (raises_last_In _ _ e Hmain Hin) as [[=] _].
Qed.
End Propagation.

Create HintDb propagation.

#[export] Hint Resolve propagating_ret propagating_print propagating_call
  propagating_lift : propagation.

Ltac propagation :=
  repeat first
    [ apply propagating_bind; [| intros ? ]
    | solve [auto with propagation] ].

Lemma fetcher_propagating {W} (hub : HubClient W) : propagating (merge_lora.main hub).
Proof. unfold merge_lora.main. propagation. Qed.

Lemma tester_propagating {W} (lib : Transformers W) : propagating (test_model.main lib).
Proof. unfold test_model.main. propagation. Qed.

(** Two outcomes of the same call on the same world are the same outcome. *)
Ltac same_call :=
  repeat match goal with
  | H1 : ?op = (_, _), H2 : ?op = (_, _) |- _ => rewrite H1 in H2; simplify_eq
  end.

(** Unpacking what a stage of the run says. *)
Ltac open_stage :=
  unfold generated, prepared, tokenized, rendered, loaded in *;
  repeat match goal with
  | H : exists _, _ |- _ => destruct H as [? H]
  | H : _ /\ _ |- _ => destruct H as [? ?]
  end.

(** C9. The library calls of a Smoke Tester run follow the plan (load the
    tokenizer, load the model, render, tokenize and move to the device,
    generate, decode) and stop where it stops: they are an initial segment
    of the plan, nothing follows a raised exception, and each call has the
    arguments the plan gives it, built from what the earlier calls
    returned: the template is rendered untokenized with the generation
    prompt, the rendered prompt is what is tokenized, and the inputs are
    moved to the device of the loaded model.  Nothing but an exception
    makes the run leave the plan: the tokenizer load is always attempted,
    each further call is made whenever the calls before it have returned,
    a run that exits with status 0 has made every call of the plan, and a
    run that does not ends with an uncaught exception. *)
Theorem tester_is_linear {W} (lib : Transformers W) (w : W) :
  (exists n : nat,
     omap step_of_call (calls_of (trace (python (test_model.main lib) w))) = take n plan) /\
  halts_on_raise (trace (python (test_model.main lib) w)) = true /\
  Forall (as_planned lib w) (calls_of (trace (python (test_model.main lib) w))) /\
  proceeds lib w (calls_of (trace (python (test_model.main lib) w))) /\
  (exit_status (python (test_model.main lib) w) = 0 ->
   omap step_of_call (calls_of (trace (python (test_model.main lib) w))) = plan) /\
  (exit_status (python (test_model.main lib) w) <> 0 ->
   exists e,
     uncaught (python (test_model.main lib) w) = Some e /\
     last (trace (python (test_model.main lib) w)) = Some (Raised e)).
Proof.
  split; [| split; [| split; [| split; [| split]]]].
  - run_tester; cbn.
    1: exists 1%nat; reflexivity.
    1: exists 2%nat; reflexivity.
    1: exists 3%nat; reflexivity.
    1: exists 4%nat; reflexivity.
    1-2: exists 5%nat; reflexivity.
    1-2: exists 6%nat; reflexivity.
    all: exists 7%nat; reflexivity.
  - apply propagating_python, tester_propagating.
  - run_tester; cbn.
    all: repeat (apply Forall_cons; split); try apply Forall_nil; cbn.
    all: try (repeat split; reflexivity).
    all: unfold generated, prepared, tokenized, rendered, loaded.
    all: repeat esplit; try eassumption; try reflexivity.
    all: apply getitem_Some; eassumption.
  - run_tester; unfold proceeds; cbn [calls_of trace].
    all: repeat match goal with |- _ /\ _ => split end; intros; open_stage; same_call.
    all: try match goal with
         | H1 : getitem0 ?t = _, H2 : getitem0 ?t = _ |- _ =>
             rewrite H1 in H2; simplify_eq
         end.
    all: try solve [cbn; repeat first [left; reflexivity | right]].
    all: match goal with
         | H : is_Some _ |- _ =>
             destruct H as [? H]; unfold getitem in *; rewrite H in *; discriminate
         end.
  - run_tester; cbn; try discriminate. reflexivity.
  - run_tester; cbn; intros Hexit; try (eexists; split; reflexivity).
    destruct Hexit. reflexivity.
Qed.

Lemma tester_is_linear_witness :
  omap step_of_call
    (calls_of (trace (python (test_model.main Fake.transformers) (Fake.ready "pad"))))
    = plan /\
  In (model_from_pretrained_call test_model.MODEL_PATH float16 "auto")
     (calls_of (trace (python (test_model.main Fake.transformers) Fake.no_weights))) /\
  exists e,
    uncaught (python (test_model.main Fake.transformers) Fake.no_weights) = Some e /\
    last (trace (python (test_model.main Fake.transformers) Fake.no_weights))
      = Some (Raised e).
Proof.
  destruct (tester_is_linear Fake.transformers (Fake.ready "pad"))
    as (_ & _ & _ & _ & Hall & _).
  destruct (tester_is_linear Fake.transformers Fake.no_weights)
    as (_ & _ & _ & (_ & Hmodel & _) & _ & Hstop).
  split; [apply Hall; vm_compute; reflexivity |].
  split.
  - apply (Hmodel {| Fake.fake_pad := Some 0 |} Fake.no_weights). reflexivity.
  - apply Hstop. vm_compute. discriminate.
Defined.

(** C8. Neither script catches, retries or translates a failure.  In both
    scripts an exception raised anywhere is the last event of the run, is
    the exception the interpreter reports, and gives exit status 1.  So
    does the exception of a failing download, of a failing tokenizer or
    model load and of a failing generation; and a Smoke Tester whose
    directory lacks the tokenizer or the model files exits with a status
    other than 0 without having called [generate] or printed a
    response. *)
Theorem errors_reach_top_level {W} (hub : HubClient W) (lib : Transformers W) (w : W) :
  (forall e, In (Raised e) (trace (python (merge_lora.main hub) w)) ->
     uncaught (python (merge_lora.main hub) w) = Some e /\
     exit_status (python (merge_lora.main hub) w) = 1 /\
     last (trace (python (merge_lora.main hub) w)) = Some (Raised e)) /\
  (forall e, In (Raised e) (trace (python (test_model.main lib) w)) ->
     uncaught (python (test_model.main lib) w) = Some e /\
     exit_status (python (test_model.main lib) w) = 1 /\
     last (trace (python (test_model.main lib) w)) = Some (Raised e)) /\
  (forall e w',
     snapshot_download hub merge_lora.request w = (inl e, w') ->
     uncaught (python (merge_lora.main hub) w) = Some e /\
     exit_status (python (merge_lora.main hub) w) <> 0 /\
     calls_of (trace (python (merge_lora.main hub) w))
       = [snapshot_download_call merge_lora.request]) /\
  (forall e w',
     AutoTokenizer_from_pretrained lib test_model.MODEL_PATH w = (inl e, w') ->
     uncaught (python (test_model.main lib) w) = Some e /\
     exit_status (python (test_model.main lib) w) <> 0 /\
     existsb is_generation_result (trace (python (test_model.main lib) w)) = false) /\
  (forall tok w1 e w',
     AutoTokenizer_from_pretrained lib test_model.MODEL_PATH w = (inr tok, w1) ->
     AutoModelForCausalLM_from_pretrained lib test_model.MODEL_PATH float16 "auto" w1
       = (inl e, w') ->
     uncaught (python (test_model.main lib) w) = Some e /\
     exit_status (python (test_model.main lib) w) <> 0 /\
     existsb is_generation_result (trace (python (test_model.main lib) w)) = false) /\
  (forall tok model inputs w5 e w',
     prepared lib w tok model inputs w5 ->
     generate lib model (test_model.generate_kwargs lib tok inputs) w5 = (inl e, w') ->
     uncaught (python (test_model.main lib) w) = Some e /\
     exit_status (python (test_model.main lib) w) <> 0 /\
     last (trace (python (test_model.main lib) w)) = Some (Raised e)).
Proof.
  split; [apply propagating_python, fetcher_propagating |].
  split; [apply propagating_python, tester_propagating |].
  split; [| split; [| split]].
  - run_fetcher; intros e' w' H; same_call. repeat split. discriminate.
  - run_tester; intros e' w' H; same_call. repeat split. discriminate.
  - run_tester; intros tok w1' e' w' Htok Hmodel; same_call. repeat split. discriminate.
  - run_tester; intros tok model inputs w5' e' w'
      (enc & w4' & (prompt & w3' & (w2' & (w1' & Htok & Hmodel) & Hrender) & Henc)
       & Hto & Hids)
      Hgen.
    all: same_call.
    + destruct Hids as [ids Hids]. unfold getitem in *. rewrite Hids in *. discriminate.
    + repeat split. discriminate.
Qed.

Lemma errors_reach_top_level_witness :
  (uncaught (python (merge_lora.main Fake.hub) Fake.offline)
     = Some (mkExn "RepositoryNotFoundError" merge_lora.MODEL_ID) /\
   exit_status (python (merge_lora.main Fake.hub) Fake.offline) <> 0) /\
  (exit_status (python (test_model.main Fake.transformers) Fake.offline) <> 0 /\
   existsb is_generation_result
     (trace (python (test_model.main Fake.transformers) Fake.offline)) = false) /\
  (exit_status (python (test_model.main Fake.transformers) Fake.no_weights) <> 0 /\
   existsb is_generation_result
     (trace (python (test_model.main Fake.transformers) Fake.no_weights)) = false) /\
  (uncaught (python (test_model.main Fake.transformers) Fake.exhausted)
     = Some (mkExn "OutOfMemoryError" "CUDA out of memory") /\
   exit_status (python (test_model.main Fake.transformers) Fake.exhausted) <> 0).
Proof.
  split; [| split; [| split]].
  - destruct (errors_reach_top_level Fake.hub Fake.transformers Fake.offline)
      as (_ & _ & Hdownload & _).
    destruct (Hdownload (mkExn "RepositoryNotFoundError" merge_lora.MODEL_ID) Fake.offline)
      as (Hexn & Hstatus & _); [reflexivity |].
    exact (conj Hexn Hstatus).
  - destruct (errors_reach_top_level Fake.hub Fake.transformers Fake.offline)
      as (_ & _ & _ & Htokenizer & _).
    destruct (Htokenizer (Fake.OSError test_model.MODEL_PATH "tokenizer.json") Fake.offline)
      as (_ & Hstatus & Hnone); [reflexivity |].
    exact (conj Hstatus Hnone).
  - destruct (errors_reach_top_level Fake.hub Fake.transformers Fake.no_weights)
      as (_ & _ & _ & _ & Hmodel & _).
    destruct (Hmodel {| Fake.fake_pad := Some 0 |} Fake.no_weights
                (Fake.OSError test_model.MODEL_PATH "model.safetensors") Fake.no_weights)
      as (_ & Hstatus & Hnone); [reflexivity | reflexivity |].
    exact (conj Hstatus Hnone).
  - destruct (errors_reach_top_level Fake.hub Fake.transformers Fake.exhausted)
      as (_ & _ & _ & _ & _ & Hgenerate).
    destruct (Hgenerate {| Fake.fake_pad := Some 0 |} {| Fake.fake_device := "cpu" |}
                Fake.example_inputs Fake.exhausted
                (mkExn "OutOfMemoryError" "CUDA out of memory") Fake.exhausted)
      as (Hexn & Hstatus & _).
    + exists (<["input_ids" := Fake.row_tensor (Fake.codes Fake.example_prompt) "cpu"]>
              (<["attention_mask" :=
                   Fake.row_tensor (List.map (fun _ => 1) (Fake.codes Fake.example_prompt))
                                   "cpu"]> ∅)),
        Fake.exhausted.
      split; [| split].
      * exists Fake.example_prompt, Fake.exhausted. split; [| reflexivity].
        exists Fake.exhausted. split; [| reflexivity].
        exists Fake.exhausted. split; reflexivity.
      * reflexivity.
      * vm_compute. eexists. reflexivity.
    + reflexivity.
    + exact (conj Hexn Hstatus).
Defined.

(** ** Runs of the Fetcher *)

(** The Fetcher exits with status 0 exactly when its download returns;
    the world it leaves is the one the download leaves. *)
Lemma fetcher_success {W} (hub : HubClient W) (w : W) :
  exit_status (python (merge_lora.main hub) w) = 0 ->
  exists path,
    snapshot_download hub merge_lora.request w
      = (inr path, world_after (python (merge_lora.main hub) w)).
Proof. run_fetcher; cbn; [discriminate | eauto]. Qed.

(** The in-memory hub honours the contract. *)
Lemma fake_download_inv (kw : SnapshotKwargs) (w w' : Fake.World) (path : string) :
  Fake.hub_snapshot_download kw w = (inr path, w') ->
  exists files,
    Fake.remote w !! repo_id kw = Some files /\
    Fake.remote w' = Fake.remote w /\
    Fake.disk w' =
      <[local_dir kw :=
          map_imap (fun f d => Some (Fake.materialise (local_dir_use_symlinks kw)
                                                      (repo_id kw) f d)) files
          ∪ Fake.dest w (local_dir kw)]> (Fake.disk w) /\
    Fake.net w' =
      Fake.net w ++ List.map (Fake.fetch (resume_download kw) (Fake.dest w (local_dir kw)))
                             (Fake.missing files (Fake.dest w (local_dir kw))).
Proof.
  unfold Fake.hub_snapshot_download.
  destruct (Fake.remote w !! repo_id kw) as [files |]; [| discriminate].
  intros [= _ <-]. exists files. cbn. auto.
Qed.

Lemma fake_remote_stable : remote_stable Fake.hub Fake.view.
Proof.
  intros kw w path w' H. apply fake_download_inv in H as (files & _ & Hremote & _).
  cbn. unfold Fake.snapshot. rewrite Hremote. reflexivity.
Qed.

Lemma fake_copies_files : copies_files Fake.hub Fake.view.
Proof.
  intros kw w path w' H Hlinks f data Hf.
  apply fake_download_inv in H as (files & Hfiles & _ & Hdisk & _).
  cbn in *. unfold Fake.snapshot in Hf. rewrite Hfiles in Hf. cbn in Hf.
  unfold Fake.dest at 1. rewrite Hdisk, lookup_insert_eq. cbn.
  apply lookup_union_Some_l. rewrite map_lookup_imap, Hf, Hlinks. reflexivity.
Qed.

Lemma fake_leaves_others : leaves_others Fake.hub Fake.view.
Proof.
  intros kw w path w' H f Hf.
  apply fake_download_inv in H as (files & Hfiles & _ & Hdisk & _).
  cbn in *. unfold Fake.snapshot in Hf. rewrite Hfiles in Hf. cbn in Hf.
  unfold Fake.dest at 1. rewrite Hdisk, lookup_insert_eq. cbn.
  apply lookup_union_r. rewrite map_lookup_imap, Hf. reflexivity.
Qed.

Lemma fake_fetches_missing : fetches_missing Fake.hub Fake.view.
Proof.
  intros kw w path w' H.
  apply fake_download_inv in H as (files & Hfiles & _ & _ & Hnet).
  eexists. split; [exact Hnet |].
  intros f off Hin. apply in_map_iff in Hin as ([f' data] & [= <- <-] & Hin).
  apply filter_In in Hin as [Hin Hmissing]. cbn in *.
  apply list_elem_of_In, elem_of_map_to_list in Hin.
  split.
  - exists data. unfold Fake.snapshot. rewrite Hfiles. cbn. split; [exact Hin |].
    apply negb_true_iff, bool_decide_eq_false in Hmissing. exact Hmissing.
  - intros ->. reflexivity.
Qed.

(** C3. Every download the Fetcher requests has symbolic links disabled
    and resume enabled.  With a hub client that honours its contract it
    follows that after a successful run every entry of the destination
    directory is a regular file or is something the directory already held
    outside the snapshot; so every entry is a regular file (none is a
    symbolic link) when whatever the directory held outside the snapshot
    was one.  And every transfer of the run over a partial file starts
    after the bytes already held. *)
Theorem fetcher_copies_and_resumes {W} (hub : HubClient W) (view : HubView W) (w : W) :
  Forall (fun c => exists kw, c = snapshot_download_call kw /\
                              local_dir_use_symlinks kw = false /\
                              resume_download kw = true)
         (calls_of (trace (python (merge_lora.main hub) w))) /\
  (copies_files hub view ->
   leaves_others hub view ->
   fetches_missing hub view ->
   exit_status (python (merge_lora.main hub) w) = 0 ->
   (forall f e,
      entries_of view (world_after (python (merge_lora.main hub) w))
                 merge_lora.OUTPUT_DIR !! f = Some e ->
      is_regular e \/
      (snapshot_of view w merge_lora.MODEL_ID !! f = None /\
       entries_of view w merge_lora.OUTPUT_DIR !! f = Some e)) /\
   ((forall f e,
       entries_of view w merge_lora.OUTPUT_DIR !! f = Some e ->
       snapshot_of view w merge_lora.MODEL_ID !! f = None ->
       is_regular e) ->
    forall f e,
      entries_of view (world_after (python (merge_lora.main hub) w))
                 merge_lora.OUTPUT_DIR !! f = Some e ->
      is_regular e) /\
   exists new,
     transfers_of view (world_after (python (merge_lora.main hub) w))
       = transfers_of view w ++ new /\
     forall f off d,
       In (f, off) new ->
       entries_of view w merge_lora.OUTPUT_DIR !! f = Some (Partial d) ->
       off = String.length d).
Proof.
  split.
  - run_fetcher; cbn; repeat constructor; exists merge_lora.request; auto.
  - intros Hcopy Hframe Hfetch Hexit. destruct (fetcher_success hub w Hexit) as [path Hdownload].
    set (w' := world_after (python (merge_lora.main hub) w)) in *.
    assert (Hcopied : forall f data,
               snapshot_of view w merge_lora.MODEL_ID !! f = Some data ->
               entries_of view w' merge_lora.OUTPUT_DIR !! f = Some (Regular data))
      by exact (Hcopy _ _ _ _ Hdownload eq_refl).
    assert (Hkept : forall f,
               snapshot_of view w merge_lora.MODEL_ID !! f = None ->
               entries_of view w' merge_lora.OUTPUT_DIR !! f
                 = entries_of view w merge_lora.OUTPUT_DIR !! f)
      by exact (Hframe _ _ _ _ Hdownload).
    assert (Hafter : forall f e,
               entries_of view w' merge_lora.OUTPUT_DIR !! f = Some e ->
               is_regular e \/
               (snapshot_of view w merge_lora.MODEL_ID !! f = None /\
                entries_of view w merge_lora.OUTPUT_DIR !! f = Some e)).
    { intros f e He.
      destruct (snapshot_of view w merge_lora.MODEL_ID !! f) as [data |] eqn:Hf.
      - rewrite (Hcopied f data Hf) in He. injection He as <-. left. exact I.
      - rewrite (Hkept f Hf) in He. right. split; [reflexivity | exact He]. }
    split; [exact Hafter | split].
    + intros Hbefore f e He.
      destruct (Hafter f e He) as [Hreg | [Hout Hold]]; [exact Hreg |].
      exact (Hbefore f e Hold Hout).
    + destruct (Hfetch _ _ _ _ Hdownload) as (new & Hlog & Hnew).
      exists new. split; [exact Hlog |].
      intros f off d Hin Hpartial.
      destruct (Hnew f off Hin) as [_ Hoff].
      rewrite (Hoff eq_refl).
      change (local_dir merge_lora.request) with merge_lora.OUTPUT_DIR.
      rewrite Hpartial. reflexivity.
Qed.

Lemma fetcher_copies_and_resumes_witness :
  (forall f e,
     Fake.dest (world_after (python (merge_lora.main Fake.hub) Fake.interrupted))
               merge_lora.OUTPUT_DIR !! f = Some e ->
     is_regular e) /\
  exists new,
    Fake.transfers (world_after (python (merge_lora.main Fake.hub) Fake.interrupted))
      = Fake.transfers Fake.interrupted ++ new /\
    forall f off d,
      In (f, off) new ->
      Fake.dest Fake.interrupted merge_lora.OUTPUT_DIR !! f = Some (Partial d) ->
      off = String.length d.
Proof.
  destruct (fetcher_copies_and_resumes Fake.hub Fake.view Fake.interrupted)
    as [_ Hrun].
  destruct (Hrun fake_copies_files fake_leaves_others fake_fetches_missing)
    as (_ & Hregular & Hresume); [vm_compute; reflexivity |].
  split; [| exact Hresume].
  apply Hregular. intros f e Hf Hout.
  apply elem_of_dom_2 in Hf. apply not_elem_of_dom in Hout.
  assert (Hdom : dom (entries_of Fake.view Fake.interrupted merge_lora.OUTPUT_DIR)
                 ⊆ dom (snapshot_of Fake.view Fake.interrupted merge_lora.MODEL_ID))
    by (apply (bool_decide_unpack _); vm_compute; exact I).
  destruct (Hout (Hdom f Hf)).
Defined.

(** C4. With a hub client that honours its contract, a second Fetcher run
    right after a successful one transfers nothing and leaves the
    destination directory exactly as the first run left it. *)
Theorem fetcher_idempotent {W} (hub : HubClient W) (view : HubView W) (w : W) :
  remote_stable hub view ->
  copies_files hub view ->
  leaves_others hub view ->
  fetches_missing hub view ->
  exit_status (python (merge_lora.main hub) w) = 0 ->
  exit_status (python (merge_lora.main hub)
                 (world_after (python (merge_lora.main hub) w))) = 0 ->
  transfers_of view
    (world_after (python (merge_lora.main hub)
                    (world_after (python (merge_lora.main hub) w))))
    = transfers_of view (world_after (python (merge_lora.main hub) w)) /\
  entries_of view
    (world_after (python (merge_lora.main hub)
                    (world_after (python (merge_lora.main hub) w))))
    merge_lora.OUTPUT_DIR
    = entries_of view (world_after (python (merge_lora.main hub) w)) merge_lora.OUTPUT_DIR.
Proof.
  intros Hstable Hcopy Hframe Hfetch Hexit1 Hexit2.
  destruct (fetcher_success hub w Hexit1) as [path1 Hrun1].
  destruct (fetcher_success hub _ Hexit2) as [path2 Hrun2].
  set (w1 := world_after (python (merge_lora.main hub) w)) in *.
  set (w2 := world_after (python (merge_lora.main hub) w1)) in *.
  assert (Hsame : snapshot_of view w1 merge_lora.MODEL_ID
                  = snapshot_of view w merge_lora.MODEL_ID)
    by exact (Hstable _ _ _ _ Hrun1).
  assert (Hcopied1 : forall f data,
             snapshot_of view w merge_lora.MODEL_ID !! f = Some data ->
             entries_of view w1 merge_lora.OUTPUT_DIR !! f = Some (Regular data))
    by exact (Hcopy _ _ _ _ Hrun1 eq_refl).
  assert (Hcopied2 : forall f data,
             snapshot_of view w1 merge_lora.MODEL_ID !! f = Some data ->
             entries_of view w2 merge_lora.OUTPUT_DIR !! f = Some (Regular data))
    by exact (Hcopy _ _ _ _ Hrun2 eq_refl).
  assert (Hkept2 : forall f,
             snapshot_of view w1 merge_lora.MODEL_ID !! f = None ->
             entries_of view w2 merge_lora.OUTPUT_DIR !! f
               = entries_of view w1 merge_lora.OUTPUT_DIR !! f)
    by exact (Hframe _ _ _ _ Hrun2).
  split.
  - destruct (Hfetch _ _ _ _ Hrun2) as (new & Hlog & Hnew).
    destruct new as [| [f off] new].
    + rewrite Hlog. apply app_nil_r.
    + destruct (Hnew f off (or_introl eq_refl)) as [(data & Hf & Hincomplete) _].
      change (repo_id merge_lora.request) with merge_lora.MODEL_ID in Hf.
      change (local_dir merge_lora.request) with merge_lora.OUTPUT_DIR in Hincomplete.
      rewrite Hsame in Hf. destruct (Hincomplete (Hcopied1 f data Hf)).
  - apply map_eq. intros f.
    destruct (snapshot_of view w1 merge_lora.MODEL_ID !! f) as [data |] eqn:Hf.
    + rewrite (Hcopied2 f data Hf). rewrite Hsame in Hf.
      rewrite (Hcopied1 f data Hf). reflexivity.
    + exact (Hkept2 f Hf).
Qed.

Lemma fetcher_idempotent_witness :
  Fake.transfers
    (world_after (python (merge_lora.main Fake.hub)
                    (world_after (python (merge_lora.main Fake.hub) Fake.interrupted))))
    = Fake.transfers (world_after (python (merge_lora.main Fake.hub) Fake.interrupted)) /\
  Fake.dest
    (world_after (python (merge_lora.main Fake.hub)
                    (world_after (python (merge_lora.main Fake.hub) Fake.interrupted))))
    merge_lora.OUTPUT_DIR
    = Fake.dest (world_after (python (merge_lora.main Fake.hub) Fake.interrupted))
                merge_lora.OUTPUT_DIR.
Proof.
  apply (fetcher_idempotent Fake.hub Fake.view Fake.interrupted
           fake_remote_stable fake_copies_files fake_leaves_others fake_fetches_missing).
  - vm_compute. reflexivity.
  - vm_compute. reflexivity.
Defined.

(** ** The scripts on the in-memory libraries *)

Example fetcher_on_fresh_disk :
  trace (python (merge_lora.main Fake.hub) (Fake.fresh "pad"))
  = [ Printed "Downloading model: professorsynapse/nexus-tools_sft17";
      Printed "This will download ~15GB on first run...";
      Called (snapshot_download_call
                {| repo_id := "professorsynapse/nexus-tools_sft17";
                   local_dir := "./nexus-tools-merged";
                   local_dir_use_symlinks := false;
                   resume_download := true |});
      Printed "Done! Model downloaded to: ./nexus-tools-merged" ].
Proof. vm_compute. reflexivity. Qed.

Example fetcher_resumes_partial_weights :
  Fake.transfers (world_after (python (merge_lora.main Fake.hub) Fake.interrupted))
  = [("tokenizer.json", 0%nat); ("model.safetensors", 0%nat); ("model.safetensors", 3%nat)].
Proof. vm_compute. reflexivity. Qed.

Example fetcher_unknown_repository :
  python (merge_lora.main Fake.hub) Fake.offline
  = mkProcess Fake.World 1
      (Some (mkExn "RepositoryNotFoundError" "professorsynapse/nexus-tools_sft17"))
      Fake.offline
      [ Printed "Downloading model: professorsynapse/nexus-tools_sft17";
        Printed "This will download ~15GB on first run...";
        Called (snapshot_download_call merge_lora.request);
        Raised (mkExn "RepositoryNotFoundError" "professorsynapse/nexus-tools_sft17") ].
Proof. vm_compute. reflexivity. Qed.

Example tester_after_fetcher :
  printed (trace (python (test_model.main Fake.transformers)
                    (world_after (python (merge_lora.main Fake.hub) (Fake.fresh "pad")))))
  = [ "Loading tokenizer...";
      "Loading model (this may take a while)...";
      "Generating test response...";
      "Prompt: <|user|>Hello! What can you help me with?<|end|><|assistant|>...";
      "Input tokens: 61";
      LF +:+ "Full response:" +:+ LF
         +:+ "<|user|>Hello! What can you help me with?<|end|><|assistant|>"
         +:+ "!!!!!!!!!!!!!!!!!!!!!!!!!!!!!!!!!!!!!!!!!!";
      LF +:+ "Generated 42 tokens" ].
Proof. vm_compute. reflexivity. Qed.

Example tester_on_empty_disk :
  printed (trace (python (test_model.main Fake.transformers) Fake.offline))
    = ["Loading tokenizer..."] /\
  exit_status (python (test_model.main Fake.transformers) Fake.offline) = 1.
Proof. vm_compute. split; reflexivity. Qed.

(** ** What the Fetcher reports *)

(** X1. The Fetcher prints its two progress lines before it asks for
    anything, and the completion line exactly when the download returned:
    its output is the same on every successful run, whether or not
    anything was transferred, and a failed download is never reported as
    done.  The world it leaves is the one the download leaves. *)
Theorem fetcher_reports_completion {W} (hub : HubClient W) (w : W) :
  printed (trace (python (merge_lora.main hub) w))
    = [ "Downloading model: professorsynapse/nexus-tools_sft17";
        "This will download ~15GB on first run..." ]
      ++ (if Z.eqb (exit_status (python (merge_lora.main hub) w)) 0
          then ["Done! Model downloaded to: ./nexus-tools-merged"]
          else []) /\
  (exit_status (python (merge_lora.main hub) w) = 0 <->
   exists path, fst (snapshot_download hub merge_lora.request w) = inr path) /\
  world_after (python (merge_lora.main hub) w)
    = snd (snapshot_download hub merge_lora.request w).
Proof.
  run_fetcher; rewrite Hcall; cbn.
  - repeat split; try discriminate. intros [path [=]].
  - repeat split; eauto.
Qed.

Lemma fetcher_reports_completion_witness :
  exit_status (python (merge_lora.main Fake.hub) (Fake.fresh "pad")) = 0 /\
  exit_status (python (merge_lora.main Fake.hub) Fake.offline) <> 0.
Proof.
  split.
  - apply (fetcher_reports_completion Fake.hub (Fake.fresh "pad")).
    exists merge_lora.OUTPUT_DIR. reflexivity.
  - intros Hexit.
    apply (fetcher_reports_completion Fake.hub Fake.offline) in Hexit as [path Hpath].
    discriminate Hpath.
Defined.

(** ** The prompt preview *)

Lemma py_prefix_length (n : nat) (s : string) :
  String.length (py_prefix n s) = Nat.min n (String.length s).
Proof.
  unfold py_prefix. revert s.
  induction n as [| n IH]; intros [| c s]; cbn; try reflexivity.
  rewrite IH. reflexivity.
Qed.

Lemma py_prefix_prefix (n : nat) (s : string) :
  String.prefix (py_prefix n s) s = true.
Proof.
  unfold py_prefix. revert s.
  induction n as [| n IH]; intros [| c s]; cbn; try reflexivity.
  destruct (ascii_dec c c) as [_ | Hne]; [apply IH | destruct Hne; reflexivity].
Qed.

Lemma py_prefix_all (n : nat) (s : string) :
  (String.length s <= n)%nat -> py_prefix n s = s.
Proof.
  unfold py_prefix. revert s.
  induction n as [| n IH]; intros [| c s]; cbn; intros Hlen;
    try reflexivity; try lia.
  rewrite IH by lia. reflexivity.
Qed.

(** X2. Once the prompt is rendered, the run prints it cut to its first
    200 characters between "Prompt: " and an ellipsis: the preview is a
    prefix of the prompt of length min(200, length of the prompt), and a
    prompt of at most 200 characters is shown whole (still followed by the
    ellipsis). *)
Theorem prompt_preview {W} (lib : Transformers W) (w w3 : W)
    (tok : Tokenizer lib) (model : Model lib) (prompt : string) :
  rendered lib w tok model prompt w3 ->
  exists preview,
    In (Printed ("Prompt: " +:+ preview +:+ "..."))
       (trace (python (test_model.main lib) w)) /\
    String.length preview = Nat.min 200 (String.length prompt) /\
    String.prefix preview prompt = true /\
    ((String.length prompt <= 200)%nat -> preview = prompt).
Proof.
  intros (w2 & (w1 & Htok & Hmodel) & Hrender).
  exists (py_prefix 200 prompt).
  split; [| split; [apply py_prefix_length | split;
                    [apply py_prefix_prefix | apply py_prefix_all]]].
  revert Htok Hmodel Hrender. run_tester; intros Htok Hmodel Hrender; same_call.
  all: do 6 right; left; reflexivity.
Qed.

Lemma prompt_preview_witness :
  exists preview,
    In (Printed ("Prompt: " +:+ preview +:+ "..."))
       (trace (python (test_model.main Fake.transformers) (Fake.ready "pad"))) /\
    String.length preview = Nat.min 200 (String.length Fake.example_prompt) /\
    String.prefix preview Fake.example_prompt = true /\
    ((String.length Fake.example_prompt <= 200)%nat -> preview = Fake.example_prompt).
Proof.
  apply (prompt_preview Fake.transformers (Fake.ready "pad") (Fake.ready "pad")
           {| Fake.fake_pad := Some 0 |} {| Fake.fake_device := "cpu" |}).
  exists (Fake.ready "pad"). split; [| reflexivity].
  exists (Fake.ready "pad"). split; reflexivity.
Defined.

(** ** Subscripts that fail *)

(** X3. When the encoding moved to the device has no [input_ids] field,
    the subscript on it raises [KeyError('input_ids')]: the run stops
    there with exit status 1, in the world the move left, after five
    library calls, without the input count and without a call to
    [generate]. *)
Theorem missing_input_ids {W} (lib : Transformers W) (w w4 w5 : W)
    (tok : Tokenizer lib) (model : Model lib) (enc inputs : gmap string Tensor) :
  tokenized lib w tok model enc w4 ->
  to lib enc (model_device lib model) w4 = (inr inputs, w5) ->
  inputs !! "input_ids" = None ->
  uncaught (python (test_model.main lib) w) = Some (KeyError "input_ids") /\
  exit_status (python (test_model.main lib) w) = 1 /\
  world_after (python (test_model.main lib) w) = w5 /\
  omap step_of_call (calls_of (trace (python (test_model.main lib) w))) = take 5 plan /\
  length (printed (trace (python (test_model.main lib) w))) = 4%nat /\
  existsb is_generation_result (trace (python (test_model.main lib) w)) = false.
Proof.
  intros (prompt & w3 & (w2 & (w1 & Htok & Hmodel) & Hrender) & Henc) Hto Hnone.
  revert Htok Hmodel Hrender Henc Hto.
  run_tester; intros Htok Hmodel Hrender Henc Hto; same_call.
  all: unfold getitem in *; rewrite Hnone in *; simplify_eq.
  repeat split.
Qed.

Lemma missing_input_ids_witness :
  uncaught (python (test_model.main Faulty.no_input_ids) (Fake.ready "pad"))
    = Some (KeyError "input_ids") /\
  exit_status (python (test_model.main Faulty.no_input_ids) (Fake.ready "pad")) = 1.
Proof.
  destruct (missing_input_ids Faulty.no_input_ids (Fake.ready "pad") (Fake.ready "pad")
              (Fake.ready "pad") {| Fake.fake_pad := Some 0 |}
              {| Fake.fake_device := "cpu" |} ∅ ∅)
    as (Hexn & Hstatus & _).
  - exists Fake.example_prompt, (Fake.ready "pad"). split; [| reflexivity].
    exists (Fake.ready "pad"). split; [| reflexivity].
    exists (Fake.ready "pad"). split; reflexivity.
  - reflexivity.
  - reflexivity.
  - exact (conj Hexn Hstatus).
Defined.

(** X4. When [generate] returns an empty batch, [outputs[0]] raises
    [IndexError]: the run stops there with exit status 1, in the world the
    generation left, after six library calls; [decode] is not called and
    no response is printed. *)
Theorem empty_output_batch {W} (lib : Transformers W) (w w6 : W)
    (tok : Tokenizer lib) (model : Model lib) (out : Tensor) :
  generated lib w tok model out w6 ->
  rows out = [] ->
  uncaught (python (test_model.main lib) w) = Some IndexError /\
  exit_status (python (test_model.main lib) w) = 1 /\
  world_after (python (test_model.main lib) w) = w6 /\
  omap step_of_call (calls_of (trace (python (test_model.main lib) w))) = take 6 plan /\
  length (printed (trace (python (test_model.main lib) w))) = 5%nat.
Proof.
  intros (inputs & w5 & (enc & w4 & (prompt & w3 & (w2 & (w1 & Htok & Hmodel) & Hrender)
                                     & Henc) & Hto & Hids) & Hgen) Hrows.
  revert Htok Hmodel Hrender Henc Hto Hgen.
  run_tester; intros Htok Hmodel Hrender Henc Hto Hgen; same_call.
  all: try (destruct Hids as [ids Hids]; unfold getitem in *; rewrite Hids in *;
            discriminate).
  all: unfold getitem0 in *; rewrite Hrows in *; simplify_eq.
  repeat split.
Qed.

Lemma empty_output_batch_witness :
  uncaught (python (test_model.main Faulty.empty_batch) (Fake.ready "pad"))
    = Some IndexError /\
  exit_status (python (test_model.main Faulty.empty_batch) (Fake.ready "pad")) = 1.
Proof.
  destruct (empty_output_batch Faulty.empty_batch (Fake.ready "pad") (Fake.ready "pad")
              {| Fake.fake_pad := Some 0 |} {| Fake.fake_device := "cpu" |}
              Faulty.no_rows)
    as (Hexn & Hstatus & _).
  - exists Fake.example_inputs, (Fake.ready "pad"). split; [| reflexivity].
    exists (<["input_ids" := Fake.row_tensor (Fake.codes Fake.example_prompt) "cpu"]>
              (<["attention_mask" :=
                   Fake.row_tensor (List.map (fun _ => 1) (Fake.codes Fake.example_prompt))
                                   "cpu"]> ∅)),
      (Fake.ready "pad").
    split; [| split].
    + exists Fake.example_prompt, (Fake.ready "pad"). split; [| reflexivity].
      exists (Fake.ready "pad"). split; [| reflexivity].
      exists (Fake.ready "pad"). split; reflexivity.
    + reflexivity.
    + vm_compute. eexists. reflexivity.
  - reflexivity.
  - exact (conj Hexn Hstatus).
Defined.

(** ** How far a run got, read off its output *)



(** ** From the Fetcher to the Smoke Tester *)

(** X6. With a hub client that copies the files of a snapshot as regular
    files, a Fetcher run that exits with status 0 leaves, in the directory
    the Smoke Tester loads from, a regular file with the content of the hub
    for every file of the model repository. *)
Theorem fetcher_fills_model_path {W} (hub : HubClient W) (view : HubView W) (w : W)
    (f data : string) :
  copies_files hub view ->
  exit_status (python (merge_lora.main hub) w) = 0 ->
  snapshot_of view w merge_lora.MODEL_ID !! f = Some data ->
  entries_of view (world_after (python (merge_lora.main hub) w)) test_model.MODEL_PATH !! f
    = Some (Regular data).
Proof.
  intros Hcopy Hexit Hf.
  destruct (fetcher_success hub w Hexit) as [path Hdownload].
  exact (Hcopy _ _ _ _ Hdownload eq_refl f data Hf).
Qed.

Lemma fetcher_fills_model_path_witness :
  Fake.dest (world_after (python (merge_lora.main Fake.hub) Fake.interrupted))
            test_model.MODEL_PATH !! "model.safetensors"
    = Some (Regular "weights").
Proof.
  apply (fetcher_fills_model_path Fake.hub Fake.view Fake.interrupted
           "model.safetensors" "weights" fake_copies_files).
  - vm_compute. reflexivity.
  - vm_compute. reflexivity.
Defined.


